(** * igraphmodule_api.h: the consumer side of igraph's C API table

    A shallow embedding of [import_igraph] and of the two invoke macros
    [PyIGraph_FromCGraph] / [PyIGraph_ToCGraph] of
    [igraph/igraphmodule_api.h] (the [#else] branch, used by modules that
    consume igraph's API).

    The function is a straight-line sequence of calls into the CPython
    runtime with two early returns and one guarded assignment of the
    file-level static [PyIGraph_API].  It is embedded as a command tree
    over the runtime calls it makes; the tree is then executed against an
    arbitrary runtime (a type class), threading the interpreter state and
    the translation unit's static storage, and recording every call. *)

From stdpp Require Import gmap strings list fin_maps.

Open Scope Z_scope.

(** ** C values *)

(** Pointers ([PyObject*], [void*], [void**]) are addresses; [NULL] is 0,
    which is what the source compares against ([module == 0]). *)
Definition ptr := Z.
Definition NULL : ptr := 0.

(** C truth value of an [int] used as a condition. *)
Definition c_true (i : Z) : bool := negb (i =? 0).

(** ** The runtime calls made by the header *)

Inductive call : Type -> Type :=
| PyImport_ImportModule (name : string) : call ptr
| PyObject_GetAttrString (o : ptr) (attr_name : string) : call ptr
| PyCObject_Check (op : ptr) : call Z
| PyCObject_AsVoidPtr (self : ptr) : call ptr
| Py_DECREF (op : ptr) : call unit
| Assign (var : string) (v : ptr) : call unit.

(** Command trees: a function body is the tree of the calls it makes. *)
Inductive cmd (R : Type) : Type :=
| Return (r : R)
| Do {X : Type} (c : call X) (k : X -> cmd R).

Arguments Return {R} r.
Arguments Do {R X} c k.

Fixpoint seq_cmd {A B : Type} (m : cmd A) (f : A -> cmd B) : cmd B :=
  match m with
  | Return a => f a
  | Do c k => Do c (fun x => seq_cmd (k x) f)
  end.

Definition skip : cmd unit := Return tt.

Declare Scope cmd_scope.
Delimit Scope cmd_scope with cmd.
Notation "x <~ c ; k" := (Do c (fun x => k))
  (at level 20, c at level 100, k at level 200, only parsing) : cmd_scope.
Notation "c ;; k" := (seq_cmd c (fun _ : unit => k))
  (at level 100, k at level 200, right associativity, only parsing) : cmd_scope.
Notation "'call!' c" := (Do c (fun _ : unit => skip))
  (at level 10, c at level 9, only parsing) : cmd_scope.

(** ** The header *)

(** [#define PyIGraph_FromCGraph_NUM 0], [#define PyIGraph_ToCGraph_NUM 1] *)
Definition PyIGraph_FromCGraph_NUM : nat := 0.
Definition PyIGraph_ToCGraph_NUM : nat := 1.

(** [#define PyIGraph_API_pointers 2] *)
Definition PyIGraph_API_pointers : nat := 2.

(** The C types the header names. *)
Inductive ctype : Type := PyObject_ptr | igraph_t_ptr.

(** The [_RETURN] and [_PROTO] macros of the two entries: the return type
    and the parameter list of each function. *)
Definition PyIGraph_FromCGraph_RETURN : ctype := PyObject_ptr.
Definition PyIGraph_FromCGraph_PROTO : list ctype := [igraph_t_ptr].
Definition PyIGraph_ToCGraph_RETURN : ctype := igraph_t_ptr.
Definition PyIGraph_ToCGraph_PROTO : list ctype := [PyObject_ptr].

(** The file-level static [static void** PyIGraph_API;], by name. *)
Definition PyIGraph_API : string := "PyIGraph_API".

(** [static int import_igraph(void)], statement by statement. *)
Definition import_igraph : cmd Z :=
  (module <~ PyImport_ImportModule "igraph._igraph";
   if module =? 0 then
     Return (-1)
   else
     c_api_object <~ PyObject_GetAttrString module "_C_API";
     if c_api_object =? 0 then
       call! (Py_DECREF module);;
       Return (-1)
     else
       (chk <~ PyCObject_Check c_api_object;
        if c_true chk then
          p <~ PyCObject_AsVoidPtr c_api_object;
          call! (Assign PyIGraph_API p)
        else skip);;
       call! (Py_DECREF c_api_object);;
       call! (Py_DECREF module);;
       Return 0)%cmd.

(** ** Executing a command tree against a runtime *)

(** The CPython runtime is external to the header: it is a parameter.
    [W] is the whole interpreter state (module registry, object heap,
    error indicator, ...).  [PyCObject_Check] is a macro comparing the
    object's type field, so it reads the state without changing it. *)
Class PyRuntime (W : Type) := {
  rt_ImportModule : string -> W -> ptr * W;
  rt_GetAttrString : ptr -> string -> W -> ptr * W;
  rt_CObject_Check : ptr -> W -> Z;
  rt_CObject_AsVoidPtr : ptr -> W -> ptr * W;
  rt_DECREF : ptr -> W -> W;
  (** [PyErr_Occurred()]: the pending exception's type, [NULL] if none. *)
  rt_Err_Occurred : W -> ptr
}.

(** A process, as seen from the including translation unit: the runtime's
    state and the unit's own variables with static storage duration. *)
Record process (W : Type) := Process {
  interp : W;
  statics : gmap string ptr
}.
Arguments Process {W} _ _.
Arguments interp {W} _.
Arguments statics {W} _.

(** Reading a static; C zero-initialises the ones never assigned. *)
Definition static_value {W} (var : string) (σ : process W) : ptr :=
  default NULL (statics σ !! var).

(** What an observer of the call sequence sees: each call with its
    arguments and its answer. *)
Inductive event : Type :=
| EvImport (name : string) (ret : ptr)
| EvGetAttr (o : ptr) (attr_name : string) (ret : ptr)
| EvCheck (op : ptr) (ret : Z)
| EvAsVoidPtr (self : ptr) (ret : ptr)
| EvDecref (op : ptr)
| EvAssign (var : string) (v : ptr).

Definition log {X} (c : call X) : X -> event :=
  match c in call X return X -> event with
  | PyImport_ImportModule name => EvImport name
  | PyObject_GetAttrString o a => EvGetAttr o a
  | PyCObject_Check op => EvCheck op
  | PyCObject_AsVoidPtr self => EvAsVoidPtr self
  | Py_DECREF op => fun _ => EvDecref op
  | Assign var v => fun _ => EvAssign var v
  end.

Section Exec.
Context {W : Type} `{RT : PyRuntime W}.

Definition perform {X} (c : call X) (σ : process W) : X * process W :=
  match c in call X return X * process W with
  | PyImport_ImportModule name =>
      let '(r, w) := rt_ImportModule name (interp σ) in (r, Process w (statics σ))
  | PyObject_GetAttrString o a =>
      let '(r, w) := rt_GetAttrString o a (interp σ) in (r, Process w (statics σ))
  | PyCObject_Check op => (rt_CObject_Check op (interp σ), σ)
  | PyCObject_AsVoidPtr self =>
      let '(r, w) := rt_CObject_AsVoidPtr self (interp σ) in (r, Process w (statics σ))
  | Py_DECREF op => (tt, Process (rt_DECREF op (interp σ)) (statics σ))
  | Assign var v => (tt, Process (interp σ) (<[var := v]> (statics σ)))
  end.

(** The result of a run: return value, final process, calls made in order. *)
Fixpoint run {R} (c : cmd R) (σ : process W) : R * process W * list event :=
  match c with
  | Return r => (r, σ, [])
  | Do c k =>
      let '(x, σ1) := perform c σ in
      let '(r, σ2, tr) := run (k x) σ1 in
      (r, σ2, log c x :: tr)
  end.

(** A function designator: the address that is called and the function
    type it is called at. *)
Record designator := Designator {
  fn_addr : ptr;
  fn_return : ctype;
  fn_params : list ctype
}.

(** The body shared by the two invoke macros: read entry [NUM] of the
    array the static [PyIGraph_API] points to, cast it to a pointer to a
    function taking [PROTO] and returning [RETURN], and dereference.  [arrays] maps a base address to the pointer array
    stored there; reading where no array is, or past its end, is undefined
    in C and [None] here. *)
Definition api_entry (RETURN : ctype) (PROTO : list ctype) (NUM : nat)
    (arrays : gmap Z (list ptr)) (σ : process W) : option designator :=
  match arrays !! static_value PyIGraph_API σ with
  | Some api =>
      match api !! NUM with
      | Some f => Some (Designator f RETURN PROTO)
      | None => None
      end
  | None => None
  end.

Definition PyIGraph_FromCGraph :=
  api_entry PyIGraph_FromCGraph_RETURN PyIGraph_FromCGraph_PROTO
            PyIGraph_FromCGraph_NUM.
Definition PyIGraph_ToCGraph :=
  api_entry PyIGraph_ToCGraph_RETURN PyIGraph_ToCGraph_PROTO
            PyIGraph_ToCGraph_NUM.

(** The runtime's answers to the calls [import_igraph] makes when started
    in interpreter state [w], each in the state the previous call left. *)
Definition module_answer (w : W) : ptr * W :=
  rt_ImportModule "igraph._igraph" w.
Definition attr_answer (w : W) : ptr * W :=
  rt_GetAttrString (module_answer w).1 "_C_API" (module_answer w).2.
Definition check_answer (w : W) : Z :=
  rt_CObject_Check (attr_answer w).1 (attr_answer w).2.
Definition voidptr_answer (w : W) : ptr * W :=
  rt_CObject_AsVoidPtr (attr_answer w).1 (attr_answer w).2.

(** The type check is reached and the attribute passes it. *)
Definition passes_check (w : W) : bool :=
  negb ((module_answer w).1 =? 0) && negb ((attr_answer w).1 =? 0)
  && c_true (check_answer w).

(** One call of [import_igraph] from process [σ]. *)
Definition returned (σ : process W) : Z := (run import_igraph σ).1.1.
Definition left_by (σ : process W) : process W := (run import_igraph σ).1.2.
Definition calls_made (σ : process W) : list event := (run import_igraph σ).2.

(** [n] consecutive calls of [import_igraph]: the return value and the
    call sequence of each, and the process they leave. *)
Fixpoint repeat_import (n : nat) (σ : process W)
  : list (Z * list event) * process W :=
  match n with
  | O => ([], σ)
  | S n' =>
      let '(r, σ1, tr) := run import_igraph σ in
      let '(rest, σ2) := repeat_import n' σ1 in
      ((r, tr) :: rest, σ2)
  end.

End Exec.

(** ** A stub runtime with a stub producer

    Modelled from the spec: the host runtime (module registry, objects,
    error indicator) is not under src/.  The stub follows the spec's
    wording of the steps: loading the producer module by name "fails with
    an ImportError-equivalent if not found", retrieving the attribute
    "fails with an AttributeError-equivalent if absent", the opaque handle
    wraps a raw pointer.  Successful lookups hand out a new reference;
    [Py_DECREF] gives one back and frees the object on reaching zero.  It
    is used to run the header on concrete inputs. *)

Inductive pytype : Type := PyModule_Type | PyCObject_Type | PyLong_Type.

Record pyobject := PyObj {
  ob_refcnt : Z;
  ob_type : pytype;
  md_dict : gmap string positive;   (* attributes, for modules *)
  cobject : ptr                     (* the wrapped [void*], for CObjects *)
}.

(** Objects live at positive addresses, so a reference is never [NULL]. *)
Record stub := Stub {
  heap : gmap positive pyobject;
  sys_modules : gmap string positive;
  curexc_type : ptr
}.

Definition PyExc_ImportError : ptr := 9001.
Definition PyExc_AttributeError : ptr := 9002.
Definition PyExc_TypeError : ptr := 9003.

Definition deref (o : ptr) (w : stub) : option pyobject :=
  match o with
  | Z.pos a => heap w !! a
  | _ => None
  end.

Definition with_refcnt (n : Z) (ob : pyobject) : pyobject :=
  PyObj n (ob_type ob) (md_dict ob) (cobject ob).

Definition Py_INCREF (a : positive) (w : stub) : stub :=
  Stub (alter (fun ob => with_refcnt (ob_refcnt ob + 1) ob) a (heap w))
       (sys_modules w) (curexc_type w).

Definition PyErr_SetObject (e : ptr) (w : stub) : stub :=
  Stub (heap w) (sys_modules w) e.

Definition stub_ImportModule (name : string) (w : stub) : ptr * stub :=
  match sys_modules w !! name with
  | Some m => (Z.pos m, Py_INCREF m w)
  | None => (NULL, PyErr_SetObject PyExc_ImportError w)
  end.

Definition stub_GetAttrString (o : ptr) (a : string) (w : stub) : ptr * stub :=
  match deref o w with
  | Some ob =>
      match md_dict ob !! a with
      | Some v => (Z.pos v, Py_INCREF v w)
      | None => (NULL, PyErr_SetObject PyExc_AttributeError w)
      end
  | None => (NULL, PyErr_SetObject PyExc_AttributeError w)
  end.

Definition stub_CObject_Check (op : ptr) (w : stub) : Z :=
  match deref op w with
  | Some (PyObj _ PyCObject_Type _ _) => 1
  | _ => 0
  end.

Definition stub_CObject_AsVoidPtr (self : ptr) (w : stub) : ptr * stub :=
  match deref self w with
  | Some (PyObj _ PyCObject_Type _ p) => (p, w)
  | _ => (NULL, PyErr_SetObject PyExc_TypeError w)
  end.

Definition stub_DECREF (op : ptr) (w : stub) : stub :=
  match op with
  | Z.pos a =>
      match heap w !! a with
      | Some ob =>
          if ob_refcnt ob - 1 =? 0 then
            Stub (delete a (heap w)) (sys_modules w) (curexc_type w)
          else
            Stub (<[a := with_refcnt (ob_refcnt ob - 1) ob]> (heap w))
                 (sys_modules w) (curexc_type w)
      | None => w
      end
  | _ => w
  end.

#[export] Instance stub_runtime : PyRuntime stub := {|
  rt_ImportModule := stub_ImportModule;
  rt_GetAttrString := stub_GetAttrString;
  rt_CObject_Check := stub_CObject_Check;
  rt_CObject_AsVoidPtr := stub_CObject_AsVoidPtr;
  rt_DECREF := stub_DECREF;
  rt_Err_Occurred := curexc_type
|}.

(** Four stub worlds, one per path through [import_igraph].  The module
    object lives at address 100, the published attribute at 200, and the
    producer's pointer table at 4096. *)

Definition igraph_module (attrs : gmap string positive) : pyobject :=
  PyObj 1 PyModule_Type attrs NULL.

(** The producer is not installed. *)
Definition world_no_module : stub := Stub ∅ ∅ NULL.

(** The producer is installed but publishes nothing under [_C_API]. *)
Definition world_no_attr : stub :=
  Stub {[ 100%positive := igraph_module ∅ ]}
       {[ "igraph._igraph" := 100%positive ]} NULL.

(** [_C_API] is a Python integer, not an opaque handle. *)
Definition world_wrong_type : stub :=
  Stub {[ 100%positive := igraph_module {[ "_C_API" := 200%positive ]};
          200%positive := PyObj 1 PyLong_Type ∅ NULL ]}
       {[ "igraph._igraph" := 100%positive ]} NULL.

(** [_C_API] is an opaque handle wrapping the table at 4096. *)
Definition world_ok : stub :=
  Stub {[ 100%positive := igraph_module {[ "_C_API" := 200%positive ]};
          200%positive := PyObj 1 PyCObject_Type ∅ 4096 ]}
       {[ "igraph._igraph" := 100%positive ]} NULL.

(** [_C_API] is an opaque handle, but the pointer it wraps is [NULL]. *)
Definition world_null_handle : stub :=
  Stub {[ 100%positive := igraph_module {[ "_C_API" := 200%positive ]};
          200%positive := PyObj 1 PyCObject_Type ∅ NULL ]}
       {[ "igraph._igraph" := 100%positive ]} NULL.

(** The producer's table: its two functions live at 7000 and 7008. *)
Definition producer_arrays : gmap Z (list ptr) := {[ 4096 := [7000; 7008] ]}.

(** A process that has never assigned any of its statics. *)
Definition fresh (w : stub) : process stub := Process w ∅.

(** ** Observations on a call sequence *)

(** Assignments to statics, in order. *)
Definition assignments (tr : list event) : list (string * ptr) :=
  omap (fun e => match e with EvAssign var v => Some (var, v) | _ => None end) tr.

(** New references handed out by the runtime (non-[NULL] answers of the
    two lookups), in order. *)
Definition acquired (tr : list event) : list ptr :=
  omap (fun e => match e with
                 | EvImport _ r | EvGetAttr _ _ r => if r =? 0 then None else Some r
                 | _ => None
                 end) tr.

(** References given back, in order. *)
Definition released (tr : list event) : list ptr :=
  omap (fun e => match e with EvDecref o => Some o | _ => None end) tr.

(** The sequence opens with the import of the producer module. *)
Definition starts_with_import (tr : list event) : bool :=
  match tr with
  | EvImport name _ :: _ => String.eqb name "igraph._igraph"
  | _ => false
  end.


(** Taking one occurrence of [x] out of the references held. *)
Fixpoint give_back (x : ptr) (held : list ptr) : option (list ptr) :=
  match held with
  | [] => None
  | y :: rest =>
      if x =? y then Some rest
      else match give_back x rest with
           | Some rest' => Some (y :: rest')
           | None => None
           end
  end.

Definition holds (x : ptr) (held : list ptr) : bool :=
  existsb (Z.eqb x) held.

(** Reference discipline of a call sequence, starting with the references
    [held]: an object is passed to the runtime only while a reference to
    it is held, a release gives back a reference that is held, and none is
    held at the end.  [NULL] is never held. *)
Fixpoint disciplined (held : list ptr) (tr : list event) : bool :=
  match tr with
  | [] => match held with [] => true | _ => false end
  | EvImport _ r :: tr' =>
      disciplined (if r =? 0 then held else r :: held) tr'
  | EvGetAttr o _ r :: tr' =>
      holds o held && disciplined (if r =? 0 then held else r :: held) tr'
  | EvCheck o _ :: tr' => holds o held && disciplined held tr'
  | EvAsVoidPtr o _ :: tr' => holds o held && disciplined held tr'
  | EvDecref o :: tr' =>
      match give_back o held with
      | Some held' => disciplined held' tr'
      | None => false
      end
  | EvAssign _ _ :: tr' => disciplined held tr'
  end.

(** ** The runtime's documented contract *)

(** A lookup that answers [NULL] has set the error indicator, and
    releasing a reference leaves the indicator alone. *)
Class PyRuntimeContract (W : Type) `{RT : PyRuntime W} : Prop := {
  import_failure_sets_error : forall name w,
    (rt_ImportModule name w).1 = NULL ->
    rt_Err_Occurred (rt_ImportModule name w).2 <> NULL;
  getattr_failure_sets_error : forall o a w,
    (rt_GetAttrString o a w).1 = NULL ->
    rt_Err_Occurred (rt_GetAttrString o a w).2 <> NULL;
  decref_keeps_error : forall o w,
    rt_Err_Occurred (rt_DECREF o w) = rt_Err_Occurred w
}.

Lemma stub_contract : PyRuntimeContract stub.
Proof.
  split.
  - intros name w. cbn. unfold stub_ImportModule.
    destruct (sys_modules w !! name); cbn; [discriminate | done].
  - intros o a w. cbn. unfold stub_GetAttrString.
    destruct (deref o w) as [ob|]; cbn; [|done].
    destruct (md_dict ob !! a); cbn; [discriminate | done].
  - intros o w. cbn. unfold stub_DECREF.
    destruct o as [|a|a]; try done.
    destruct (heap w !! a) as [ob|]; [|done].
    by destruct (ob_refcnt ob - 1 =? 0).
Qed.

(** ** What one call does *)

Section OneCall.
Context {W : Type} `{RT : PyRuntime W}.
Implicit Types (σ : process W) (w : W).

(** The body of [import_igraph] unfolded against the runtime's answers. *)
Lemma run_import_igraph σ :
  run import_igraph σ =
    let w := interp σ in
    let m := (module_answer w).1 in
    let o := (attr_answer w).1 in
    if m =? 0 then
      (-1, Process (module_answer w).2 (statics σ), [EvImport "igraph._igraph" m])
    else if o =? 0 then
      (-1, Process (rt_DECREF m (attr_answer w).2) (statics σ),
       [EvImport "igraph._igraph" m; EvGetAttr m "_C_API" o; EvDecref m])
    else if c_true (check_answer w) then
      (0, Process (rt_DECREF m (rt_DECREF o (voidptr_answer w).2))
                  (<[PyIGraph_API := (voidptr_answer w).1]> (statics σ)),
       [EvImport "igraph._igraph" m; EvGetAttr m "_C_API" o;
        EvCheck o (check_answer w); EvAsVoidPtr o (voidptr_answer w).1;
        EvAssign PyIGraph_API (voidptr_answer w).1; EvDecref o; EvDecref m])
    else
      (0, Process (rt_DECREF m (rt_DECREF o (attr_answer w).2)) (statics σ),
       [EvImport "igraph._igraph" m; EvGetAttr m "_C_API" o;
        EvCheck o (check_answer w); EvDecref o; EvDecref m]).
Proof.
  destruct σ as [w s].
  unfold voidptr_answer, check_answer, attr_answer, module_answer. cbn.
  destruct (rt_ImportModule "igraph._igraph" w) as [m w1]. cbn.
  destruct (m =? 0); [done|]. cbn.
  destruct (rt_GetAttrString m "_C_API" w1) as [o w2]. cbn.
  destruct (o =? 0); [done|]. cbn.
  destruct (c_true (rt_CObject_Check o w2)); [|done]. cbn.
  by destruct (rt_CObject_AsVoidPtr o w2) as [p w3].
Qed.

End OneCall.

(** From here on a call is reasoned about through [run_import_igraph]. *)
Arguments run : simpl never.

(** Splits a goal about one call into the four paths of the body. *)
Ltac by_path σ :=
  unfold returned, left_by, calls_made, passes_check;
  rewrite (run_import_igraph σ); cbv zeta;
  destruct ((module_answer (interp σ)).1 =? 0) eqn:Hmodule;
  [ apply Z.eqb_eq in Hmodule
  | apply Z.eqb_neq in Hmodule;
    destruct ((attr_answer (interp σ)).1 =? 0) eqn:Hattr;
    [ apply Z.eqb_eq in Hattr
    | apply Z.eqb_neq in Hattr;
      destruct (c_true (check_answer (interp σ))) eqn:Hcheck ] ];
  cbn [fst snd interp statics negb andb].

Lemma c_true_spec i : c_true i = false <-> i = 0.
Proof. unfold c_true. destruct (Z.eqb_spec i 0); naive_solver. Qed.

Section Claims.
Context {W : Type} `{RT : PyRuntime W}.
Implicit Types (σ : process W) (w : W).

(** The function returns 0 exactly when both lookups answered non-[NULL];
    the type check plays no part in the return value. *)
Lemma returned_zero_iff σ :
  returned σ = 0 <->
  (module_answer (interp σ)).1 <> NULL /\ (attr_answer (interp σ)).1 <> NULL.
Proof. unfold NULL. by_path σ; intuition congruence. Qed.

(** C3: when loading "igraph._igraph" fails ([PyImport_ImportModule]
    answers [NULL]), [import_igraph] returns -1 having made no other call,
    and every static of the unit, [PyIGraph_API] in particular, keeps the
    value it had. *)
Theorem import_failure_returns_minus_one σ :
  (module_answer (interp σ)).1 = NULL ->
  returned σ = -1
  /\ calls_made σ = [EvImport "igraph._igraph" NULL]
  /\ statics (left_by σ) = statics σ
  /\ static_value PyIGraph_API (left_by σ) = static_value PyIGraph_API σ.
Proof.
  unfold NULL, static_value. intros Hnull.
  by_path σ; [|done..]. by rewrite Hmodule.
Qed.

(** C2: when the module loads and [_C_API] is retrieved but
    [PyCObject_Check] is false, [import_igraph] still returns 0, never
    assigns [PyIGraph_API] (nor any other static), and leaves the error
    indicator as the attribute lookup and the two releases left it: no
    error is raised for the mismatch. *)
Theorem type_mismatch_is_silent σ :
  (module_answer (interp σ)).1 <> NULL ->
  (attr_answer (interp σ)).1 <> NULL ->
  check_answer (interp σ) = 0 ->
  returned σ = 0
  /\ assignments (calls_made σ) = []
  /\ statics (left_by σ) = statics σ
  /\ static_value PyIGraph_API (left_by σ) = static_value PyIGraph_API σ
  /\ interp (left_by σ) =
       rt_DECREF (module_answer (interp σ)).1
         (rt_DECREF (attr_answer (interp σ)).1 (attr_answer (interp σ)).2).
Proof.
  unfold NULL, static_value. intros Hm Ho Hchk.
  assert (c_true (check_answer (interp σ)) = false) by by apply c_true_spec.
  by_path σ; try done; congruence.
Qed.

(** C6: the return value is -1 or 0 and nothing else; it is -1 exactly on
    the two paths where a lookup answered [NULL], and on those paths, for a
    runtime that honours its contract, the error indicator is set when
    the function returns. *)
Theorem returns_minus_one_or_zero `{!PyRuntimeContract W} σ :
  (returned σ = -1 \/ returned σ = 0)
  /\ (returned σ = -1 <->
        (module_answer (interp σ)).1 = NULL \/ (attr_answer (interp σ)).1 = NULL)
  /\ (returned σ = -1 -> rt_Err_Occurred (interp (left_by σ)) <> NULL).
Proof.
  unfold NULL. by_path σ.
  - split_and!; [by left | by split; [left|] |].
    intros _. by apply import_failure_sets_error.
  - split_and!; [by left | by split; [right|] |].
    intros _. rewrite decref_keeps_error. by apply getattr_failure_sets_error.
  - split_and!; [by right | | done]. split; [done | by intros [|]].
  - split_and!; [by right | | done]. split; [done | by intros [|]].
Qed.

(** C4: when the module loads but retrieving [_C_API] fails
    ([PyObject_GetAttrString] answers [NULL]), [import_igraph] releases
    the module and returns -1; the error raised by the failed lookup is
    the one pending at return, and [PyIGraph_API] (like every other
    static) keeps its value. *)
Theorem attribute_failure_returns_minus_one `{!PyRuntimeContract W} σ :
  (module_answer (interp σ)).1 <> NULL ->
  (attr_answer (interp σ)).1 = NULL ->
  returned σ = -1
  /\ rt_Err_Occurred (interp (left_by σ)) = rt_Err_Occurred (attr_answer (interp σ)).2
  /\ rt_Err_Occurred (interp (left_by σ)) <> NULL
  /\ statics (left_by σ) = statics σ
  /\ static_value PyIGraph_API (left_by σ) = static_value PyIGraph_API σ.
Proof.
  unfold NULL, static_value. intros Hm Ho.
  by_path σ; try done.
  rewrite decref_keeps_error. split_and!; try done.
  by apply getattr_failure_sets_error.
Qed.

(** The statics a call leaves. *)
Lemma statics_left_by_call σ :
  statics (left_by σ) =
    (if passes_check (interp σ)
     then <[PyIGraph_API := (voidptr_answer (interp σ)).1]> (statics σ)
     else statics σ)
  /\ assignments (calls_made σ) =
      (if passes_check (interp σ)
       then [(PyIGraph_API, (voidptr_answer (interp σ)).1)] else []).
Proof. by by_path σ. Qed.

(** C7: the checks come in a fixed order.  The call sequence of
    [import_igraph] is always one of four: the import alone when it fails
    (result -1); import, attribute lookup, release of the module when the
    lookup fails (result -1); import, lookup, type check, the two releases
    when the check is false (result 0, statics untouched); and import,
    lookup, type check, unwrapping of the handle, assignment of the raw
    pointer to [PyIGraph_API], the two releases when the check passes
    (result 0).  Each later call is made only after the earlier ones
    answered non-[NULL]. *)
Theorem checks_in_fixed_order σ :
  let w := interp σ in
  let m := (module_answer w).1 in
  let o := (attr_answer w).1 in
  let p := (voidptr_answer w).1 in
  (m = NULL /\ returned σ = -1
   /\ calls_made σ = [EvImport "igraph._igraph" NULL])
  \/ (m <> NULL /\ o = NULL /\ returned σ = -1
      /\ calls_made σ =
           [EvImport "igraph._igraph" m; EvGetAttr m "_C_API" NULL; EvDecref m])
  \/ (m <> NULL /\ o <> NULL /\ check_answer w = 0 /\ returned σ = 0
      /\ calls_made σ =
           [EvImport "igraph._igraph" m; EvGetAttr m "_C_API" o;
            EvCheck o 0; EvDecref o; EvDecref m]
      /\ statics (left_by σ) = statics σ)
  \/ (m <> NULL /\ o <> NULL /\ check_answer w <> 0 /\ returned σ = 0
      /\ calls_made σ =
           [EvImport "igraph._igraph" m; EvGetAttr m "_C_API" o;
            EvCheck o (check_answer w); EvAsVoidPtr o p;
            EvAssign PyIGraph_API p; EvDecref o; EvDecref m]
      /\ statics (left_by σ) = <[PyIGraph_API := p]> (statics σ)).
Proof.
  cbv zeta. unfold NULL. by_path σ.
  - left. by rewrite Hmodule.
  - right; left. by rewrite Hattr.
  - right; right; right. split_and!; try done.
    intros Hz. apply c_true_spec in Hz. congruence.
  - right; right; left. apply c_true_spec in Hcheck.
    by rewrite Hcheck.
Qed.

(** C9: of the unit's statics, one call of [import_igraph] can change
    [PyIGraph_API] only.  It makes a single assignment to it, of the
    unwrapped pointer, when the type check is reached and passes, and no
    assignment at all on every other path, where the statics are left as
    they were. *)
Theorem only_PyIGraph_API_is_assigned σ :
  let w := interp σ in
  assignments (calls_made σ) =
    (if passes_check w then [(PyIGraph_API, (voidptr_answer w).1)] else [])
  /\ (length (assignments (calls_made σ)) <= 1)%nat
  /\ statics (left_by σ) =
       (if passes_check w
        then <[PyIGraph_API := (voidptr_answer w).1]> (statics σ)
        else statics σ)
  /\ delete PyIGraph_API (statics (left_by σ)) = delete PyIGraph_API (statics σ).
Proof.
  cbv zeta. by_path σ; cbn; split_and!; try done; try lia.
  by rewrite delete_insert_eq.
Qed.

(** C10: every reference [import_igraph] acquires it releases before it
    returns.  When the import fails nothing is acquired and nothing
    released; when the attribute lookup fails the module reference is
    acquired and released; otherwise the module and the attribute
    references are acquired and both released, the attribute first.  On
    every path the released references are the acquired ones. *)
Theorem references_are_released σ :
  let w := interp σ in
  let m := (module_answer w).1 in
  let o := (attr_answer w).1 in
  released (calls_made σ) = reverse (acquired (calls_made σ))
  /\ ((m = NULL /\ acquired (calls_made σ) = [] /\ released (calls_made σ) = [])
      \/ (m <> NULL /\ o = NULL
          /\ acquired (calls_made σ) = [m] /\ released (calls_made σ) = [m])
      \/ (m <> NULL /\ o <> NULL
          /\ acquired (calls_made σ) = [m; o] /\ released (calls_made σ) = [o; m])).
Proof.
  cbv zeta. unfold NULL.
  by_path σ; cbn; rewrite ?Hmodule, ?Hattr; cbn;
    repeat match goal with
           | H : ?x <> 0 |- context [?x =? 0] =>
               rewrite (proj2 (Z.eqb_neq x 0) H)
           end; cbn.
  - split; [done|]. by left.
  - split; [done|]. right; left. done.
  - split; [done|]. right; right. done.
  - split; [done|]. right; right. done.
Qed.

End Claims.

Section Repeated.
Context {W : Type} `{RT : PyRuntime W}.
Implicit Types (σ : process W) (w : W) (s : gmap string ptr).

(** The return value, the calls made and the runtime state left by a call
    do not depend on the statics: the body never reads them. *)
Lemma call_ignores_statics w s s' :
  returned (Process w s) = returned (Process w s')
  /\ calls_made (Process w s) = calls_made (Process w s')
  /\ interp (left_by (Process w s)) = interp (left_by (Process w s')).
Proof.
  unfold returned, left_by, calls_made. rewrite !run_import_igraph.
  cbv zeta. cbn [interp statics].
  by repeat case_match.
Qed.

Lemma starts_with_import_call σ : starts_with_import (calls_made σ) = true.
Proof. by by_path σ. Qed.

Lemma repeat_import_S n σ :
  repeat_import (S n) σ =
    ((returned σ, calls_made σ) :: (repeat_import n (left_by σ)).1,
     (repeat_import n (left_by σ)).2).
Proof.
  cbn [repeat_import]. unfold returned, calls_made, left_by.
  destruct (run import_igraph σ) as [[r σ1] tr]. cbn [fst snd].
  by destruct (repeat_import n σ1) as [rest σ2].
Qed.

Lemma repeat_import_snoc n σ :
  repeat_import (S n) σ =
    ((repeat_import n σ).1
       ++ [(returned (repeat_import n σ).2, calls_made (repeat_import n σ).2)],
     left_by (repeat_import n σ).2).
Proof.
  revert σ. induction n as [|n IH]; intros σ.
  - by rewrite repeat_import_S.
  - rewrite (repeat_import_S (S n) σ), !(IH (left_by σ)).
    by rewrite !(repeat_import_S n σ).
Qed.

Lemma repeat_import_all_start n σ :
  forallb (fun c => starts_with_import c.2) (repeat_import n σ).1 = true.
Proof.
  revert σ. induction n as [|n IH]; intros σ; [done|].
  rewrite repeat_import_S. cbn [fst snd forallb].
  by rewrite starts_with_import_call, IH.
Qed.

(** C5: [import_igraph] can be called any number of times.  The call made
    after [n] earlier ones is an ordinary call from the process they left:
    it consults no cached result (its return value, its calls and what it
    does to the runtime are the same whatever the statics hold), it starts,
    like every call before it, with the import of "igraph._igraph", and
    the value of [PyIGraph_API] after it is the outcome of this most
    recent call: the pointer it unwrapped when its type check passed,
    otherwise the value already there. *)
Theorem repeated_calls_re_resolve n σ :
  let σn := (repeat_import n σ).2 in
  let w := interp σn in
  repeat_import (S n) σ =
    ((repeat_import n σ).1 ++ [(returned σn, calls_made σn)], left_by σn)
  /\ (forall s, returned (Process w s) = returned σn
             /\ calls_made (Process w s) = calls_made σn
             /\ interp (left_by (Process w s)) = interp (left_by σn))
  /\ forallb (fun c => starts_with_import c.2) (repeat_import (S n) σ).1 = true
  /\ static_value PyIGraph_API (repeat_import (S n) σ).2 =
       (if passes_check w then (voidptr_answer w).1
        else static_value PyIGraph_API σn).
Proof.
  cbv zeta. split_and!.
  - apply repeat_import_snoc.
  - intros s. destruct ((repeat_import n σ).2) as [w sn]. apply call_ignores_statics.
  - apply repeat_import_all_start.
  - rewrite repeat_import_snoc. cbn [snd]. unfold static_value.
    destruct (statics_left_by_call (repeat_import n σ).2) as [-> _].
    destruct (passes_check _); [|done].
    by rewrite lookup_insert_eq.
Qed.

End Repeated.

(** ** The capability table *)

(** C8: the table has [PyIGraph_API_pointers] = 2 entries and the two
    indices the header defines are exactly 0 and 1.  Whenever the cached
    pointer addresses a two-entry array, [PyIGraph_FromCGraph] designates
    entry 0, called with an [igraph_t] pointer and returning a [PyObject]
    pointer, and [PyIGraph_ToCGraph] designates entry 1, called with a
    [PyObject] pointer and returning an [igraph_t] pointer. *)
Theorem api_table_layout {W : Type} (σ : process W)
    (arrays : gmap Z (list ptr)) (f0 f1 : ptr) :
  arrays !! static_value PyIGraph_API σ = Some [f0; f1] ->
  PyIGraph_API_pointers = 2%nat
  /\ length [f0; f1] = PyIGraph_API_pointers
  /\ [PyIGraph_FromCGraph_NUM; PyIGraph_ToCGraph_NUM] = seq 0 PyIGraph_API_pointers
  /\ PyIGraph_FromCGraph arrays σ = Some (Designator f0 PyObject_ptr [igraph_t_ptr])
  /\ PyIGraph_ToCGraph arrays σ = Some (Designator f1 igraph_t_ptr [PyObject_ptr]).
Proof.
  intros Hapi. unfold PyIGraph_FromCGraph, PyIGraph_ToCGraph, api_entry.
  by rewrite Hapi.
Qed.

(** ** The header on the stub worlds *)

(** C1: the module loads, [_C_API] is there, but it is a Python integer:
    the type check answers 0 and [import_igraph] nevertheless returns 0
    with no error pending and [PyIGraph_API] still [NULL]. *)
Theorem wrong_type_reports_success :
  (module_answer world_wrong_type).1 = 100
  /\ (attr_answer world_wrong_type).1 = 200
  /\ check_answer world_wrong_type = 0
  /\ returned (fresh world_wrong_type) = 0
  /\ rt_Err_Occurred (interp (left_by (fresh world_wrong_type))) = NULL
  /\ static_value PyIGraph_API (left_by (fresh world_wrong_type)) = NULL.
Proof. by vm_compute. Qed.

Lemma import_failure_witness :
  (module_answer (interp (fresh world_no_module))).1 = NULL
  /\ returned (fresh world_no_module) = -1
  /\ calls_made (fresh world_no_module) = [EvImport "igraph._igraph" NULL]
  /\ statics (left_by (fresh world_no_module)) = statics (fresh world_no_module)
  /\ static_value PyIGraph_API (left_by (fresh world_no_module))
     = static_value PyIGraph_API (fresh world_no_module).
Proof.
  split; [reflexivity|].
  apply (import_failure_returns_minus_one (fresh world_no_module)).
  reflexivity.
Defined.

Lemma type_mismatch_witness :
  ((module_answer (interp (fresh world_wrong_type))).1 <> NULL
   /\ (attr_answer (interp (fresh world_wrong_type))).1 <> NULL
   /\ check_answer (interp (fresh world_wrong_type)) = 0)
  /\ returned (fresh world_wrong_type) = 0
  /\ assignments (calls_made (fresh world_wrong_type)) = []
  /\ statics (left_by (fresh world_wrong_type)) = statics (fresh world_wrong_type)
  /\ static_value PyIGraph_API (left_by (fresh world_wrong_type))
     = static_value PyIGraph_API (fresh world_wrong_type)
  /\ interp (left_by (fresh world_wrong_type)) =
       rt_DECREF (module_answer (interp (fresh world_wrong_type))).1
         (rt_DECREF (attr_answer (interp (fresh world_wrong_type))).1
                    (attr_answer (interp (fresh world_wrong_type))).2).
Proof.
  split; [by vm_compute|].
  apply (type_mismatch_is_silent (fresh world_wrong_type)); by vm_compute.
Defined.

Lemma returns_minus_one_or_zero_witness :
  PyRuntimeContract stub
  /\ (returned (fresh world_no_attr) = -1 \/ returned (fresh world_no_attr) = 0)
  /\ (returned (fresh world_no_attr) = -1 <->
        (module_answer (interp (fresh world_no_attr))).1 = NULL
        \/ (attr_answer (interp (fresh world_no_attr))).1 = NULL)
  /\ (returned (fresh world_no_attr) = -1 ->
        rt_Err_Occurred (interp (left_by (fresh world_no_attr))) <> NULL).
Proof.
  split; [exact stub_contract|].
  exact (@returns_minus_one_or_zero stub stub_runtime stub_contract
           (fresh world_no_attr)).
Defined.

Lemma attribute_failure_witness :
  (PyRuntimeContract stub
   /\ (module_answer (interp (fresh world_no_attr))).1 <> NULL
   /\ (attr_answer (interp (fresh world_no_attr))).1 = NULL)
  /\ returned (fresh world_no_attr) = -1
  /\ rt_Err_Occurred (interp (left_by (fresh world_no_attr)))
     = rt_Err_Occurred (attr_answer (interp (fresh world_no_attr))).2
  /\ rt_Err_Occurred (interp (left_by (fresh world_no_attr))) <> NULL
  /\ statics (left_by (fresh world_no_attr)) = statics (fresh world_no_attr)
  /\ static_value PyIGraph_API (left_by (fresh world_no_attr))
     = static_value PyIGraph_API (fresh world_no_attr).
Proof.
  split; [split; [exact stub_contract | by vm_compute]|].
  apply (@attribute_failure_returns_minus_one stub stub_runtime stub_contract
           (fresh world_no_attr)); by vm_compute.
Defined.

Lemma api_table_layout_witness :
  producer_arrays !! static_value PyIGraph_API (left_by (fresh world_ok))
    = Some [7000; 7008]
  /\ PyIGraph_API_pointers = 2%nat
  /\ length [7000; 7008] = PyIGraph_API_pointers
  /\ [PyIGraph_FromCGraph_NUM; PyIGraph_ToCGraph_NUM] = seq 0 PyIGraph_API_pointers
  /\ PyIGraph_FromCGraph producer_arrays (left_by (fresh world_ok))
     = Some (Designator 7000 PyObject_ptr [igraph_t_ptr])
  /\ PyIGraph_ToCGraph producer_arrays (left_by (fresh world_ok))
     = Some (Designator 7008 igraph_t_ptr [PyObject_ptr]).
Proof.
  split; [by vm_compute|].
  apply (api_table_layout (left_by (fresh world_ok)) producer_arrays 7000 7008).
  by vm_compute.
Defined.

(** The stub producer end to end: in the world where everything is in
    place the call returns 0, caches the table's address, and gives both
    references back, so every reference count is what it was. *)
Example acquire_on_world_ok :
  returned (fresh world_ok) = 0
  /\ static_value PyIGraph_API (left_by (fresh world_ok)) = 4096
  /\ heap (interp (left_by (fresh world_ok))) = heap world_ok
  /\ curexc_type (interp (left_by (fresh world_ok))) = NULL.
Proof. by vm_compute. Qed.

(** The attribute lookup that fails on the stub leaves an
    [AttributeError] pending, the import that fails an [ImportError]. *)
Example errors_on_stub :
  rt_Err_Occurred (interp (left_by (fresh world_no_attr))) = PyExc_AttributeError
  /\ rt_Err_Occurred (interp (left_by (fresh world_no_module))) = PyExc_ImportError.
Proof. by vm_compute. Qed.

(** A second call that fails leaves the pointer cached by the first. *)
Example failing_call_keeps_cache :
  let σ1 := left_by (fresh world_ok) in
  let σ2 := left_by (Process world_no_module (statics σ1)) in
  returned (Process world_no_module (statics σ1)) = -1
  /\ static_value PyIGraph_API σ2 = 4096.
Proof. by vm_compute. Qed.

(** Two calls in a row on the stub: each runs the whole sequence again and
    the second assigns the same pointer once more. *)
Example two_calls_on_world_ok :
  (repeat_import 2 (fresh world_ok)).1 =
    [(0, calls_made (fresh world_ok)); (0, calls_made (fresh world_ok))]
  /\ length (calls_made (fresh world_ok)) = 7%nat
  /\ static_value PyIGraph_API (repeat_import 2 (fresh world_ok)).2 = 4096.
Proof. by vm_compute. Qed.

(** ** Further properties of the header *)

Section Further.
Context {W : Type} `{RT : PyRuntime W}.
Implicit Types (σ : process W) (w : W).

(** X1: acquire, then invoke.  When the type check is reached and passes
    and the unwrapped pointer addresses the producer's two-entry array,
    the call returns 0 and afterwards the two macros designate the
    array's entries 0 and 1, whatever [PyIGraph_API] held before. *)
Theorem acquire_then_invoke σ (arrays : gmap Z (list ptr)) (f0 f1 : ptr) :
  passes_check (interp σ) = true ->
  arrays !! (voidptr_answer (interp σ)).1 = Some [f0; f1] ->
  returned σ = 0
  /\ PyIGraph_FromCGraph arrays (left_by σ)
     = Some (Designator f0 PyObject_ptr [igraph_t_ptr])
  /\ PyIGraph_ToCGraph arrays (left_by σ)
     = Some (Designator f1 igraph_t_ptr [PyObject_ptr]).
Proof.
  intros Hpass Harr.
  destruct (statics_left_by_call σ) as [Hst _]. rewrite Hpass in Hst.
  unfold PyIGraph_FromCGraph, PyIGraph_ToCGraph, api_entry, static_value.
  rewrite Hst, lookup_insert_eq. unfold default; cbn [from_option id].
  rewrite Harr.
  split; [|done].
  revert Hpass. by by_path σ.
Qed.

(** X2: invoke without a successful acquire.  If [PyIGraph_API] was not
    assigned before and the call does not pass the type check, then
    whatever the call returns (0 on a type mismatch, -1 otherwise) the
    static is still [NULL] afterwards and both macros read through it:
    with no array at address 0 neither designates a function. *)
Theorem invoke_after_unsuccessful_call σ (arrays : gmap Z (list ptr)) :
  static_value PyIGraph_API σ = NULL ->
  passes_check (interp σ) = false ->
  arrays !! NULL = None ->
  static_value PyIGraph_API (left_by σ) = NULL
  /\ PyIGraph_FromCGraph arrays (left_by σ) = None
  /\ PyIGraph_ToCGraph arrays (left_by σ) = None.
Proof.
  intros Hunset Hfail Hnone.
  destruct (statics_left_by_call σ) as [Hst _]. rewrite Hfail in Hst.
  assert (static_value PyIGraph_API (left_by σ) = NULL) as Hnull.
  { unfold static_value in *. by rewrite Hst. }
  unfold PyIGraph_FromCGraph, PyIGraph_ToCGraph, api_entry.
  by rewrite Hnull, Hnone.
Qed.

(** The macros do no bounds check of their own.  Both designate a
    function exactly when the cached pointer addresses an array of at
    least [PyIGraph_API_pointers] entries. *)
Lemma macros_defined_iff σ (arrays : gmap Z (list ptr)) :
  is_Some (PyIGraph_FromCGraph arrays σ) /\ is_Some (PyIGraph_ToCGraph arrays σ)
  <-> exists api, arrays !! static_value PyIGraph_API σ = Some api
                  /\ (PyIGraph_API_pointers <= length api)%nat.
Proof.
  unfold PyIGraph_FromCGraph, PyIGraph_ToCGraph, api_entry,
    PyIGraph_FromCGraph_NUM, PyIGraph_ToCGraph_NUM, PyIGraph_API_pointers.
  destruct (arrays !! static_value PyIGraph_API σ) as [api|].
  - destruct api as [|f0 [|f1 api]]; cbn.
    + split; [intros [[? [=]] _] | intros (? & [= <-] & Hlen); cbn in Hlen; lia].
    + split; [intros [_ [? [=]]] | intros (? & [= <-] & Hlen); cbn in Hlen; lia].
    + split; [|by eauto]. intros _. eexists. split; [done|]. cbn. lia.
  - split; [intros [[? [=]] _] | intros (? & [=] & _)].
Qed.

(** X3: a call that returns -1 has assigned nothing: a failed acquire
    never disturbs a pointer cached by an earlier call, nor any other
    static. *)
Theorem failure_leaves_statics σ :
  returned σ = -1 ->
  assignments (calls_made σ) = [] /\ statics (left_by σ) = statics σ.
Proof. by by_path σ. Qed.

(** X4: the unwrapped pointer is stored unchecked.  When the type check
    passes and [PyCObject_AsVoidPtr] answers [NULL], the call still
    returns 0 and [PyIGraph_API] is [NULL] afterwards, replacing whatever
    was cached. *)
Theorem null_handle_is_cached σ :
  passes_check (interp σ) = true ->
  (voidptr_answer (interp σ)).1 = NULL ->
  returned σ = 0 /\ static_value PyIGraph_API (left_by σ) = NULL.
Proof.
  intros Hpass Hnull.
  destruct (statics_left_by_call σ) as [Hst _]. rewrite Hpass in Hst.
  unfold static_value. rewrite Hst, lookup_insert_eq, Hnull.
  split; [|done]. revert Hpass. by by_path σ.
Qed.

(** X5: reference discipline.  In every call, each object handed to the
    runtime is one whose reference the call holds at that moment (so never
    [NULL] and never after its release), each release gives back a held
    reference, and no reference is held when the call returns. *)
Theorem call_is_disciplined σ :
  disciplined [] (calls_made σ) = true.
Proof.
  by_path σ; cbn; rewrite ?Hmodule, ?Hattr; cbn;
    repeat match goal with
           | H : ?x <> 0 |- context [?x =? 0] =>
               rewrite (proj2 (Z.eqb_neq x 0) H)
           end; cbn; rewrite ?Z.eqb_refl; cbn; rewrite ?Z.eqb_refl; cbn;
    rewrite ?orb_true_r; done.
Qed.

(** X6: over any number of calls only [PyIGraph_API] can differ from
    what the statics held at the start, and the history has one entry per
    call. *)
Theorem repeated_calls_frame n σ :
  delete PyIGraph_API (statics (repeat_import n σ).2)
    = delete PyIGraph_API (statics σ)
  /\ length (repeat_import n σ).1 = n.
Proof.
  induction n as [|n [IHs IHl]]; [done|].
  rewrite repeat_import_snoc. cbn [fst snd].
  rewrite length_app, IHl. split; [|cbn; lia].
  destruct (statics_left_by_call (repeat_import n σ).2) as [-> _].
  destruct (passes_check _); [|done].
  by rewrite delete_insert_eq.
Qed.


End Further.

Lemma acquire_then_invoke_witness :
  (passes_check (interp (fresh world_ok)) = true
   /\ producer_arrays !! (voidptr_answer (interp (fresh world_ok))).1
      = Some [7000; 7008])
  /\ returned (fresh world_ok) = 0
  /\ PyIGraph_FromCGraph producer_arrays (left_by (fresh world_ok))
     = Some (Designator 7000 PyObject_ptr [igraph_t_ptr])
  /\ PyIGraph_ToCGraph producer_arrays (left_by (fresh world_ok))
     = Some (Designator 7008 igraph_t_ptr [PyObject_ptr]).
Proof.
  split; [by vm_compute|].
  apply (acquire_then_invoke (fresh world_ok) producer_arrays 7000 7008);
    by vm_compute.
Defined.

Lemma invoke_after_unsuccessful_call_witness :
  (static_value PyIGraph_API (fresh world_wrong_type) = NULL
   /\ passes_check (interp (fresh world_wrong_type)) = false
   /\ producer_arrays !! NULL = None)
  /\ static_value PyIGraph_API (left_by (fresh world_wrong_type)) = NULL
  /\ PyIGraph_FromCGraph producer_arrays (left_by (fresh world_wrong_type)) = None
  /\ PyIGraph_ToCGraph producer_arrays (left_by (fresh world_wrong_type)) = None.
Proof.
  split; [by vm_compute|].
  apply (invoke_after_unsuccessful_call (fresh world_wrong_type) producer_arrays);
    by vm_compute.
Defined.

Lemma failure_leaves_statics_witness :
  returned (Process world_no_attr {[ PyIGraph_API := 4096 ]}) = -1
  /\ assignments (calls_made (Process world_no_attr {[ PyIGraph_API := 4096 ]})) = []
  /\ statics (left_by (Process world_no_attr {[ PyIGraph_API := 4096 ]}))
     = statics (Process world_no_attr {[ PyIGraph_API := 4096 ]}).
Proof.
  split; [by vm_compute|].
  apply (failure_leaves_statics (Process world_no_attr {[ PyIGraph_API := 4096 ]})).
  by vm_compute.
Defined.

Lemma null_handle_is_cached_witness :
  (passes_check (interp (Process world_null_handle {[ PyIGraph_API := 4096 ]})) = true
   /\ (voidptr_answer (interp (Process world_null_handle {[ PyIGraph_API := 4096 ]}))).1
      = NULL)
  /\ returned (Process world_null_handle {[ PyIGraph_API := 4096 ]}) = 0
  /\ static_value PyIGraph_API
       (left_by (Process world_null_handle {[ PyIGraph_API := 4096 ]})) = NULL.
Proof.
  split; [by vm_compute|].
  apply (null_handle_is_cached (Process world_null_handle {[ PyIGraph_API := 4096 ]}));
    by vm_compute.
Defined.

(** The discipline check does reject sequences that break it: a release
    of a reference never acquired, a use after the release, a reference
    still held at the end, and a use of [NULL]. *)
Example undisciplined_sequences :
  disciplined [] [EvDecref 100] = false
  /\ disciplined [] [EvImport "m" 100; EvDecref 100; EvGetAttr 100 "a" 0] = false
  /\ disciplined [] [EvImport "m" 100] = false
  /\ disciplined [] [EvImport "m" 0; EvGetAttr 0 "a" 0] = false
  /\ disciplined [] [EvImport "m" 100; EvDecref 100; EvDecref 100] = false.
Proof. by vm_compute. Qed.
